(** * KonomiTV client, [services/Channels.ts]: channel directory and Jikkyo gateway

    A shallow embedding of the channel service of the KonomiTV web client
    and the properties of its four operations.

    TypeScript types are erased when the client runs, so the embedding has
    two layers: the values that exist at run time ([JSValue]), and the
    interfaces of the source as shapes over those values ([TsType],
    [has_type]).  The asynchronous operations are written in a small monad
    that threads the remote server, the log of requests handed to the API
    client and the log of notifications shown to the user. *)

From Stdlib Require Import String List ZArith Bool Lia.
Import ListNotations.
Open Scope string_scope.
Open Scope list_scope.
Open Scope Z_scope.

Set Warnings "-register-all".

(** ** Run-time values *)

(** A JavaScript value as it travels through this service: what JSON can
    carry.  The numbers handled here (identifiers, counts, [vpos]) are
    integers. *)
Inductive JSValue : Type :=
| JSNull
| JSBool (b : bool)
| JSNumber (n : Z)
| JSString (s : string)
| JSArray (items : list JSValue)
| JSObject (props : list (string * JSValue)).

(** Property access [o.k] on the property list of an object. *)
Fixpoint get_prop (k : string) (props : list (string * JSValue)) : option JSValue :=
  match props with
  | [] => None
  | (k', v) :: rest => if String.eqb k k' then Some v else get_prop k rest
  end.

(** [v.k]; a missing property, or a property of something that is not an
    object, reads as [None] (JavaScript's [undefined]). *)
Definition prop (k : string) (v : JSValue) : option JSValue :=
  match v with
  | JSObject props => get_prop k props
  | _ => None
  end.

Definition prop_names (v : JSValue) : list string :=
  match v with
  | JSObject props => map fst props
  | _ => []
  end.

(** ** TypeScript types as shapes *)

Inductive TsType : Type :=
| TString
| TNumber
| TBoolean
| TNull
| TLiteral (s : string)
| TUnion (a b : TsType)
| TArray (elem : TsType)
| TInterface (members : list (string * TsType)).

(** Structural conformance of a run-time value to a type: every declared
    member of an interface is present with a conforming value. *)
Fixpoint has_type (t : TsType) (v : JSValue) {struct t} : bool :=
  match t with
  | TString => match v with JSString _ => true | _ => false end
  | TNumber => match v with JSNumber _ => true | _ => false end
  | TBoolean => match v with JSBool _ => true | _ => false end
  | TNull => match v with JSNull => true | _ => false end
  | TLiteral s => match v with JSString s' => String.eqb s s' | _ => false end
  | TUnion a b => has_type a v || has_type b v
  | TArray elem =>
      match v with
      | JSArray items => forallb (has_type elem) items
      | _ => false
      end
  | TInterface members =>
      match v with
      | JSObject props =>
          (fix all_members (ms : list (string * TsType)) : bool :=
             match ms with
             | [] => true
             | (k, mt) :: rest =>
                 match get_prop k props with
                 | Some x => has_type mt x
                 | None => false
                 end && all_members rest
             end) members
      | _ => false
      end
  end.

Definition member_names (t : TsType) : list string :=
  match t with
  | TInterface members => map fst members
  | _ => []
  end.

(** [interface B extends A { ... }] *)
Definition extends (base : TsType) (own : list (string * TsType)) : TsType :=
  match base with
  | TInterface members => TInterface (members ++ own)
  | _ => TInterface own
  end.

(** ** The data model of [Channels.ts] *)

(** [type ChannelType = 'GR' | 'BS' | 'CS' | 'CATV' | 'SKY' | 'STARDIGIO'] *)
Definition channel_type_tags : list string :=
  ["GR"; "BS"; "CS"; "CATV"; "SKY"; "STARDIGIO"].

Definition ChannelType : TsType :=
  TUnion (TLiteral "GR") (TUnion (TLiteral "BS") (TUnion (TLiteral "CS")
    (TUnion (TLiteral "CATV") (TUnion (TLiteral "SKY") (TLiteral "STARDIGIO"))))).

(** [type ChannelTypePretty]: the labels shown in the channel list. *)
Definition ChannelTypePretty : TsType :=
  TUnion (TLiteral "ピン留め") (TUnion (TLiteral "地デジ") (TUnion (TLiteral "BS")
    (TUnion (TLiteral "CS") (TUnion (TLiteral "CATV") (TUnion (TLiteral "SKY")
      (TLiteral "StarDigio")))))).

Definition IChannel : TsType :=
  TInterface
    [ ("id", TString);
      ("display_channel_id", TString);
      ("network_id", TNumber);
      ("service_id", TNumber);
      ("transport_stream_id", TUnion TNumber TNull);
      ("remocon_id", TNumber);
      ("channel_number", TString);
      ("type", ChannelType);
      ("name", TString);
      ("jikkyo_force", TUnion TNumber TNull);
      ("is_subchannel", TBoolean);
      ("is_radiochannel", TBoolean);
      ("is_watchable", TBoolean) ].

Section Programs.

(** [import { IProgram, IProgramDefault } from '@/services/Programs']:
    the program interface and its default value live in another module.
    Both are parameters: the interface is any type, the default any value. *)
Variable IProgram : TsType.
Variable IProgramDefault : JSValue.

Definition ILiveChannel : TsType :=
  extends IChannel
    [ ("is_display", TBoolean);
      ("viewer_count", TNumber);
      ("program_present", TUnion IProgram TNull);
      ("program_following", TUnion IProgram TNull) ].

Definition ILiveChannelDefault : JSValue :=
  JSObject
    [ ("id", JSString "NID0-SID0");
      ("display_channel_id", JSString "gr000");
      ("network_id", JSNumber 0);
      ("service_id", JSNumber 0);
      ("transport_stream_id", JSNull);
      ("remocon_id", JSNumber 0);
      ("channel_number", JSString "---");
      ("type", JSString "GR");
      ("name", JSString "取得中…");
      ("jikkyo_force", JSNull);
      ("is_subchannel", JSBool false);
      ("is_radiochannel", JSBool false);
      ("is_watchable", JSBool true);
      ("is_display", JSBool true);
      ("viewer_count", JSNumber 0);
      ("program_present", IProgramDefault);
      ("program_following", IProgramDefault) ].

Definition ILiveChannelsList : TsType :=
  TInterface
    [ ("GR", TArray ILiveChannel);
      ("BS", TArray ILiveChannel);
      ("CS", TArray ILiveChannel);
      ("CATV", TArray ILiveChannel);
      ("SKY", TArray ILiveChannel);
      ("STARDIGIO", TArray ILiveChannel) ].

End Programs.

(** Modelled from the spec: the value of [IProgramDefault], the constant
    that [services/Programs] exports and that is not part of this module.
    The spec gives the placeholder "nulled program slots" ("both program
    slots null"): the value its two slots receive is [null]. *)
Definition spec_IProgramDefault : JSValue := JSNull.

Definition IJikkyoWebSocketInfo : TsType :=
  TInterface
    [ ("websocket_url", TUnion TString TNull);
      ("is_nxjikkyo_exclusive", TBoolean) ].

Definition IJikkyoSendCommentRequest : TsType :=
  TInterface
    [ ("text", TString);
      ("color", TString);
      ("position", TString);
      ("size", TString);
      ("vpos", TNumber) ].

Definition IJikkyoSendCommentResult : TsType :=
  TInterface
    [ ("is_success", TBoolean);
      ("detail", TString) ].

(** ** Asynchronous computations *)

(** How a promise settles. *)
Inductive Settled (A : Type) : Type :=
| Fulfilled (value : A)
| Rejected (reason : JSValue).
Arguments Fulfilled {A} value.
Arguments Rejected {A} reason.

Inductive Method : Type := GET | POST.

Record Request : Type := mkRequest {
  method : Method;
  url : string;
  body : option JSValue
}.

(** Modelled from the spec: the answer of the shared API client
    ([services/APIClient], not part of this module), which "returns either
    a typed success payload or an error envelope ([type: 'error'])".  The
    shape of the envelope belongs to the transport and is kept opaque. *)
Inductive APIResponse : Type :=
| SuccessResponse (data : JSValue)
| ErrorResponse (envelope : JSValue).

(** One call of [APIClient.showGenericError(response, message)]. *)
Record Notification : Type := mkNotification {
  failed_response : APIResponse;
  message : string
}.

(** Modelled from the spec: the transport behind [APIClient.get] and
    [APIClient.post] (request execution, retries, authentication), an
    external collaborator.  It answers a request from the state of the
    remote side and moves that state.  The spec describes what it returns;
    a rejected promise is kept as a possible outcome so that the absence of
    an exception is a statement about the operations and not a convention
    of the model. *)
Class Transport (Server : Type) : Type :=
  request : Request -> Server -> Settled APIResponse * Server.

Section Async.

Context {Server : Type}.

(** What an operation can touch: the remote side, and the two logs that
    make its effects observable. *)
Record World : Type := mkWorld {
  server : Server;
  requests : list Request;
  notifications : list Notification
}.

Definition Async (A : Type) : Type := World -> Settled A * World.

Definition ret {A : Type} (a : A) : Async A :=
  fun w => (Fulfilled a, w).

(** [await]: a rejection of the awaited promise rejects the whole
    computation, as there is no [try]/[catch] in this module. *)
Definition bind {A B : Type} (m : Async A) (k : A -> Async B) : Async B :=
  fun w =>
    match m w with
    | (Fulfilled a, w') => k a w'
    | (Rejected e, w') => (Rejected e, w')
    end.

End Async.

Arguments World Server : clear implicits.
Arguments Async Server A : clear implicits.

Declare Scope async_scope.
Delimit Scope async_scope with async.
Notation "x <- m ;; k" := (bind m (fun x => k))
  (at level 100, m at next level, right associativity) : async_scope.
Notation "m ;;; k" := (bind m (fun _ => k))
  (at level 100, right associativity) : async_scope.

(** ** The API client, as this module uses it *)

Module APIClient.
Section WithTransport.

Context {Server : Type} `{Transport Server}.

Definition send (req : Request) : Async Server APIResponse :=
  fun w =>
    let (answer, server') := request req (server w) in
    (answer, mkWorld server' (requests w ++ [req]) (notifications w)).

(** [APIClient.get<T>(url)] *)
Definition get (path : string) : Async Server APIResponse :=
  send (mkRequest GET path None).

(** [APIClient.post<T>(url, data)] *)
Definition post (path : string) (data : JSValue) : Async Server APIResponse :=
  send (mkRequest POST path (Some data)).

(** Modelled from the spec: [APIClient.showGenericError] is not part of
    this module; it "triggers a generic user-facing notification".  Each
    call shows one notification, recorded with the response and the
    message it was given. *)
Definition showGenericError (response : APIResponse) (msg : string) : Async Server unit :=
  fun w =>
    (Fulfilled tt,
     mkWorld (server w) (requests w) (notifications w ++ [mkNotification response msg])).

End WithTransport.
End APIClient.

(** ** [class Channels] *)

(** The operations return [T | null]: the payload, or JavaScript's [null].
    The test [response.type === 'error'] on the tagged response is the
    [match] on [APIResponse]. *)
Module Channels.
Section WithTransport.

Context {Server : Type} `{Transport Server}.
Open Scope async_scope.

Definition fetchAll : Async Server JSValue :=
  response <- APIClient.get "/channels" ;;
  match response with
  | ErrorResponse _ =>
      APIClient.showGenericError response "チャンネル情報を取得できませんでした。" ;;;
      ret JSNull
  | SuccessResponse data => ret data
  end.

(** The template literals [`/channels/${channel_id}...`] are plain string
    concatenations. *)
Definition fetch (channel_id : string) : Async Server JSValue :=
  response <- APIClient.get ("/channels/" ++ channel_id) ;;
  match response with
  | ErrorResponse _ =>
      APIClient.showGenericError response "チャンネル情報を取得できませんでした。" ;;;
      ret JSNull
  | SuccessResponse data => ret data
  end.

Definition fetchJikkyoWebSocketInfo (channel_id : string) : Async Server JSValue :=
  response <- APIClient.get ("/channels/" ++ channel_id ++ "/jikkyo") ;;
  match response with
  | ErrorResponse _ =>
      APIClient.showGenericError response
        "コメント受信用 WebSocket API の情報を取得できませんでした。" ;;;
      ret JSNull
  | SuccessResponse data => ret data
  end.

Definition sendJikkyoComment (channel_id : string) (comment : JSValue) : Async Server JSValue :=
  response <- APIClient.post ("/channels/" ++ channel_id ++ "/jikkyo/comment") comment ;;
  match response with
  | ErrorResponse _ =>
      APIClient.showGenericError response "ニコニコ実況へのコメント送信に失敗しました。" ;;;
      ret JSNull
  | SuccessResponse data => ret data
  end.

End WithTransport.
End Channels.

(** ** The four operations as one family *)

Inductive Operation : Type :=
| FetchAll
| Fetch (channel_id : string)
| FetchJikkyoWebSocketInfo (channel_id : string)
| SendJikkyoComment (channel_id : string) (comment : JSValue).

Definition call {Server : Type} `{Transport Server} (op : Operation) : Async Server JSValue :=
  match op with
  | FetchAll => Channels.fetchAll
  | Fetch channel_id => Channels.fetch channel_id
  | FetchJikkyoWebSocketInfo channel_id => Channels.fetchJikkyoWebSocketInfo channel_id
  | SendJikkyoComment channel_id comment => Channels.sendJikkyoComment channel_id comment
  end.

(** The request of each operation as the table of external interfaces of
    the spec gives it (method, path, body); the operations of the source
    are compared with it below. *)
Definition spec_request (op : Operation) : Request :=
  match op with
  | FetchAll => mkRequest GET "/channels" None
  | Fetch channel_id => mkRequest GET ("/channels/" ++ channel_id) None
  | FetchJikkyoWebSocketInfo channel_id =>
      mkRequest GET ("/channels/" ++ channel_id ++ "/jikkyo") None
  | SendJikkyoComment channel_id comment =>
      mkRequest POST ("/channels/" ++ channel_id ++ "/jikkyo/comment") (Some comment)
  end.

(** The settled result of a run, and the world it leaves. *)
Definition outcome {Server A : Type} (m : Async Server A) (w : World Server) : Settled A :=
  fst (m w).

Definition after {Server A : Type} (m : Async Server A) (w : World Server) : World Server :=
  snd (m w).

(** The operations fall into three groups by the text of the notification
    they show on failure. *)
Inductive MessageGroup : Type :=
| ChannelInformation
| JikkyoWebSocketInformation
| JikkyoCommentSubmission.

Definition message_group (op : Operation) : MessageGroup :=
  match op with
  | FetchAll | Fetch _ => ChannelInformation
  | FetchJikkyoWebSocketInfo _ => JikkyoWebSocketInformation
  | SendJikkyoComment _ _ => JikkyoCommentSubmission
  end.

(** ** The directory and its buckets *)

(** [directory.GR], [directory.BS], ...: the channels of one bucket. *)
Definition bucket (directory : JSValue) (tag : string) : list JSValue :=
  match prop tag directory with
  | Some (JSArray channels) => channels
  | _ => []
  end.

(** The union of the six buckets, in the order of the interface. *)
Definition all_channels (directory : JSValue) : list JSValue :=
  flat_map (bucket directory) channel_type_tags.

Definition id_of (channel : JSValue) : option string :=
  match prop "id" channel with
  | Some (JSString s) => Some s
  | _ => None
  end.

Definition type_of (channel : JSValue) : option string :=
  match prop "type" channel with
  | Some (JSString s) => Some s
  | _ => None
  end.

Definition option_string_eqb (a b : option string) : bool :=
  match a, b with
  | Some x, Some y => String.eqb x y
  | None, None => true
  | _, _ => false
  end.

Fixpoint distinct (ids : list (option string)) : bool :=
  match ids with
  | [] => true
  | x :: rest => negb (existsb (option_string_eqb x) rest) && distinct rest
  end.

(** No [id] occurs twice in the union of the buckets. *)
Definition no_duplicate_id (directory : JSValue) : bool :=
  distinct (map id_of (all_channels directory)).

(** Every channel of a bucket carries the tag of that bucket in [type]. *)
Definition buckets_match_type (directory : JSValue) : bool :=
  forallb
    (fun tag =>
       forallb (fun channel => option_string_eqb (type_of channel) (Some tag))
               (bucket directory tag))
    channel_type_tags.

Definition directory_invariant (directory : JSValue) : bool :=
  no_duplicate_id directory && buckets_match_type directory.

(** Some channel of the directory has a [type] outside [ChannelType]. *)
Definition has_unrecognized_type (directory : JSValue) : bool :=
  existsb
    (fun channel =>
       match prop "type" channel with
       | Some tag => negb (has_type ChannelType tag)
       | None => true
       end)
    (all_channels directory).

(** ** A concrete transport and concrete data *)

(** A backend that answers by route and keeps no state; a route it does
    not know is answered with an error envelope. *)
Definition RouteTable : Type := list (Method * string * Settled APIResponse).

Definition method_eqb (a b : Method) : bool :=
  match a, b with
  | GET, GET | POST, POST => true
  | _, _ => false
  end.

Fixpoint route (m : Method) (path : string) (table : RouteTable) : Settled APIResponse :=
  match table with
  | [] => Fulfilled (ErrorResponse (JSObject [("status", JSNumber 404)]))
  | (m', path', answer) :: rest =>
      if method_eqb m m' && String.eqb path path' then answer else route m path rest
  end.

#[export] Instance route_table_transport : Transport RouteTable :=
  fun req table => (route (method req) (url req) table, table).

Definition fresh (table : RouteTable) : World RouteTable := mkWorld table [] [].

(** A live channel with no program data in either slot. *)
Definition sample_channel (id display_channel_id type name : string) : JSValue :=
  JSObject
    [ ("id", JSString id);
      ("display_channel_id", JSString display_channel_id);
      ("network_id", JSNumber 32736);
      ("service_id", JSNumber 1024);
      ("transport_stream_id", JSNumber 32736);
      ("remocon_id", JSNumber 1);
      ("channel_number", JSString "011");
      ("type", JSString type);
      ("name", JSString name);
      ("jikkyo_force", JSNull);
      ("is_subchannel", JSBool false);
      ("is_radiochannel", JSBool false);
      ("is_watchable", JSBool true);
      ("is_display", JSBool true);
      ("viewer_count", JSNumber 3);
      ("program_present", JSNull);
      ("program_following", JSNull) ].

Definition sample_directory (gr bs : list JSValue) : JSValue :=
  JSObject
    [ ("GR", JSArray gr);
      ("BS", JSArray bs);
      ("CS", JSArray []);
      ("CATV", JSArray []);
      ("SKY", JSArray []);
      ("STARDIGIO", JSArray []) ].

Definition nhk_g : JSValue := sample_channel "NID32736-SID1024" "gr011" "GR" "NHK G".
Definition nhk_bs : JSValue := sample_channel "NID4-SID101" "bs101" "BS" "NHK BS".

(** A directory with one terrestrial and one BS channel. *)
Definition good_directory : JSValue := sample_directory [nhk_g] [nhk_bs].

(** The BS channel filed under the terrestrial bucket as well. *)
Definition misfiled_directory : JSValue := sample_directory [nhk_g; nhk_bs] [nhk_bs].

(** A channel whose tag is not one of the six. *)
Definition odd_directory : JSValue :=
  sample_directory [sample_channel "NID1-SID1" "xx001" "XX" "Unknown"] [].

(** A stand-in for the program interface of [services/Programs]. *)
Definition sample_IProgram : TsType :=
  TInterface [("id", TString); ("title", TString)].

(** A default program that is an object of that stand-in. *)
Definition sample_IProgramDefault : JSValue :=
  JSObject [("id", JSString "NID0-SID0-EID0"); ("title", JSString "取得中…")].

Definition no_jikkyo : JSValue :=
  JSObject [("websocket_url", JSNull); ("is_nxjikkyo_exclusive", JSBool false)].

Definition rate_limited : JSValue :=
  JSObject [("is_success", JSBool false); ("detail", JSString "rate limited")].

(** A submission with empty text and a negative [vpos]. *)
Definition malformed_comment : JSValue :=
  JSObject
    [ ("text", JSString "");
      ("color", JSString "white");
      ("position", JSString "naka");
      ("size", JSString "medium");
      ("vpos", JSNumber (-5)) ].

(** A backend that serves [directory] and knows the channel [gr011]. *)
Definition sample_backend (directory : JSValue) : RouteTable :=
  [ (GET, "/channels", Fulfilled (SuccessResponse directory));
    (GET, "/channels/gr011", Fulfilled (SuccessResponse nhk_g));
    (GET, "/channels/gr011/jikkyo", Fulfilled (SuccessResponse no_jikkyo));
    (POST, "/channels/gr011/jikkyo/comment", Fulfilled (SuccessResponse rate_limited)) ].

(** A backend with no route at all: every request is answered with an
    error envelope. *)
Definition failing_backend : RouteTable := [].

(** A backend whose directory request never completes: the promise of the
    transport is rejected. *)
Definition unreachable_backend : RouteTable :=
  [ (GET, "/channels", Rejected (JSString "network down")) ].

(** The tags that are also labels of the channel list. *)
Definition tags_shown_as_they_are : list string := ["BS"; "CS"; "CATV"; "SKY"].

(** * Properties *)

(** ** The partition of a directory *)

Lemma option_string_eqb_eq (a b : option string) :
  option_string_eqb a b = true -> a = b.
Proof.
  destruct a as [x |], b as [y |]; simpl; intros Heq; try discriminate; try reflexivity.
  apply String.eqb_eq in Heq. now subst.
Qed.

(** In a directory whose buckets match, a channel found in a bucket
    carries the tag of that bucket. *)
Lemma typed_bucket (directory : JSValue) (tag : string) (channel : JSValue) :
  buckets_match_type directory = true ->
  In tag channel_type_tags -> In channel (bucket directory tag) ->
  type_of channel = Some tag.
Proof.
  unfold buckets_match_type. intros Hmatch Htag Hin.
  rewrite forallb_forall in Hmatch. specialize (Hmatch tag Htag).
  rewrite forallb_forall in Hmatch. apply option_string_eqb_eq. now apply Hmatch.
Qed.

(** ** Running one operation *)

Section Runs.

Context {Server : Type} `{Transport Server}.

Ltac run_operation op Hanswer :=
  destruct op; cbn [call spec_request] in Hanswer |- *;
  unfold Channels.fetchAll, Channels.fetch, Channels.fetchJikkyoWebSocketInfo,
    Channels.sendJikkyoComment, bind, APIClient.get, APIClient.post, APIClient.send;
  rewrite Hanswer; simpl.

(** Whatever the transport answers, an operation hands exactly one request
    to the API client: the one of the interface table. *)
Lemma call_requests (op : Operation) (w : World Server) :
  requests (after (call op) w) = requests w ++ [spec_request op].
Proof.
  unfold after.
  destruct (request (spec_request op) (server w)) as [[[data | envelope] | reason] s'] eqn:Hanswer;
    run_operation op Hanswer; reflexivity.
Qed.

Lemma call_success (op : Operation) (w : World Server) (data : JSValue) (s' : Server) :
  request (spec_request op) (server w) = (Fulfilled (SuccessResponse data), s') ->
  call op w =
    (Fulfilled data, mkWorld s' (requests w ++ [spec_request op]) (notifications w)).
Proof.
  intros Hanswer. run_operation op Hanswer; reflexivity.
Qed.

Lemma call_error (op : Operation) (w : World Server) (envelope : JSValue) (s' : Server) :
  request (spec_request op) (server w) = (Fulfilled (ErrorResponse envelope), s') ->
  exists msg : string,
    call op w =
      (Fulfilled JSNull,
       mkWorld s' (requests w ++ [spec_request op])
         (notifications w ++ [mkNotification (ErrorResponse envelope) msg])).
Proof.
  intros Hanswer. run_operation op Hanswer; eexists; reflexivity.
Qed.

Lemma call_rejected (op : Operation) (w : World Server) (reason : JSValue) (s' : Server) :
  request (spec_request op) (server w) = (Rejected reason, s') ->
  call op w =
    (Rejected reason, mkWorld s' (requests w ++ [spec_request op]) (notifications w)).
Proof.
  intros Hanswer. run_operation op Hanswer; reflexivity.
Qed.

(** An object that has a property is not [null]. *)
Lemma prop_not_null (k : string) (v x : JSValue) :
  prop k v = Some x -> v <> JSNull.
Proof.
  intros Hprop Hnull. subst v. discriminate Hprop.
Qed.

(** C1: on an error envelope each of the four operations returns [null]
    (the promise is fulfilled, not rejected), and shows exactly one
    notification, for that envelope; on a successful round trip it shows
    none. *)
Theorem failure_is_null_with_one_notification (op : Operation) (w : World Server) :
  (forall envelope s',
      request (spec_request op) (server w) = (Fulfilled (ErrorResponse envelope), s') ->
      outcome (call op) w = Fulfilled JSNull /\
      exists msg,
        notifications (after (call op) w) =
          notifications w ++ [mkNotification (ErrorResponse envelope) msg]) /\
  (forall data s',
      request (spec_request op) (server w) = (Fulfilled (SuccessResponse data), s') ->
      notifications (after (call op) w) = notifications w).
Proof.
  split.
  - intros envelope s' Hanswer.
    destruct (call_error op w envelope s' Hanswer) as [msg Hrun].
    unfold outcome, after. rewrite Hrun. simpl. split; [reflexivity | now exists msg].
  - intros data s' Hanswer.
    unfold after. rewrite (call_success op w data s' Hanswer). reflexivity.
Qed.

(** C3: a comment the server rejects ([is_success = false]) on a successful
    round trip comes back to the caller as that very result, which is not
    [null], and nothing is notified. *)
Theorem rejected_comment_is_a_result
    (channel_id : string) (comment result : JSValue) (w : World Server) (s' : Server) :
  request (mkRequest POST ("/channels/" ++ channel_id ++ "/jikkyo/comment") (Some comment))
          (server w) = (Fulfilled (SuccessResponse result), s') ->
  prop "is_success" result = Some (JSBool false) ->
  outcome (Channels.sendJikkyoComment channel_id comment) w = Fulfilled result /\
  result <> JSNull /\
  notifications (after (Channels.sendJikkyoComment channel_id comment) w) = notifications w.
Proof.
  intros Hanswer Hrejected.
  pose proof (call_success (SendJikkyoComment channel_id comment) w result s' Hanswer) as Hrun.
  simpl in Hrun. unfold outcome, after. rewrite Hrun. simpl.
  repeat split. exact (prop_not_null _ _ _ Hrejected).
Qed.

(** C4: a gateway lookup that succeeds with [websocket_url = null] returns
    that information, a value other than the [null] of a failed lookup,
    and nothing is notified. *)
Theorem null_websocket_url_is_a_result
    (channel_id : string) (info : JSValue) (w : World Server) (s' : Server) :
  request (mkRequest GET ("/channels/" ++ channel_id ++ "/jikkyo") None) (server w)
    = (Fulfilled (SuccessResponse info), s') ->
  prop "websocket_url" info = Some JSNull ->
  outcome (Channels.fetchJikkyoWebSocketInfo channel_id) w = Fulfilled info /\
  info <> JSNull /\
  notifications (after (Channels.fetchJikkyoWebSocketInfo channel_id) w) = notifications w.
Proof.
  intros Hanswer Hurl.
  pose proof (call_success (FetchJikkyoWebSocketInfo channel_id) w info s' Hanswer) as Hrun.
  simpl in Hrun. unfold outcome, after. rewrite Hrun. simpl.
  repeat split. exact (prop_not_null _ _ _ Hurl).
Qed.

(** C9: on every response that is not an error, each of the four
    operations returns the [data] of the response itself, whatever value
    it is. *)
Theorem success_returns_the_payload
    (op : Operation) (w : World Server) (data : JSValue) (s' : Server) :
  request (spec_request op) (server w) = (Fulfilled (SuccessResponse data), s') ->
  outcome (call op) w = Fulfilled data.
Proof.
  intros Hanswer. unfold outcome. now rewrite (call_success op w data s' Hanswer).
Qed.

End Runs.

(** ** Requests and notifications *)

Section Requests.

Context {Server : Type} `{Transport Server}.

(** C8: a submission is never examined before it is sent.  For every
    submission the one request handed to the API client carries it as its
    body, unchanged; what the caller then observes is decided by the answer
    of the server alone: the payload on success, [null] with one
    notification on an error envelope. *)
Theorem comment_is_sent_without_validation
    (channel_id : string) (comment : JSValue) (w : World Server) :
  let req := mkRequest POST ("/channels/" ++ channel_id ++ "/jikkyo/comment") (Some comment) in
  let run := Channels.sendJikkyoComment channel_id comment in
  requests (after run w) = requests w ++ [req] /\
  match fst (request req (server w)) with
  | Fulfilled (SuccessResponse data) =>
      outcome run w = Fulfilled data /\
      notifications (after run w) = notifications w
  | Fulfilled (ErrorResponse envelope) =>
      outcome run w = Fulfilled JSNull /\
      exists msg,
        notifications (after run w) =
          notifications w ++ [mkNotification (ErrorResponse envelope) msg]
  | Rejected reason =>
      outcome run w = Rejected reason /\
      notifications (after run w) = notifications w
  end.
Proof.
  intros req run. split.
  - exact (call_requests (SendJikkyoComment channel_id comment) w).
  - destruct (request req (server w)) as [[[data | envelope] | reason] s'] eqn:Hanswer;
      cbn [fst]; unfold outcome, after.
    + pose proof (call_success (SendJikkyoComment channel_id comment) w data s' Hanswer) as Hrun.
      cbn [call] in Hrun. subst run. rewrite Hrun. split; reflexivity.
    + destruct (call_error (SendJikkyoComment channel_id comment) w envelope s' Hanswer)
        as [msg Hrun].
      cbn [call] in Hrun. subst run. rewrite Hrun. split; [reflexivity | now exists msg].
    + pose proof (call_rejected (SendJikkyoComment channel_id comment) w reason s' Hanswer) as Hrun.
      cbn [call] in Hrun. subst run. rewrite Hrun. split; reflexivity.
Qed.

(** C10: for every identifier the three per-channel operations request the
    path obtained by pasting the identifier, as it is, after [/channels/];
    so an identifier that ends in [/jikkyo] sends the single-channel
    operation to the route of the gateway lookup. *)
Theorem channel_id_is_interpolated_verbatim
    (channel_id : string) (comment : JSValue) (w : World Server) :
  requests (after (Channels.fetch channel_id) w) =
    requests w ++ [mkRequest GET ("/channels/" ++ channel_id) None] /\
  requests (after (Channels.fetchJikkyoWebSocketInfo channel_id) w) =
    requests w ++ [mkRequest GET ("/channels/" ++ channel_id ++ "/jikkyo") None] /\
  requests (after (Channels.sendJikkyoComment channel_id comment) w) =
    requests w ++
      [mkRequest POST ("/channels/" ++ channel_id ++ "/jikkyo/comment") (Some comment)] /\
  requests (after (Channels.fetch (channel_id ++ "/jikkyo")) w) =
    requests (after (Channels.fetchJikkyoWebSocketInfo channel_id) w).
Proof.
  repeat split.
  - exact (call_requests (Fetch channel_id) w).
  - exact (call_requests (FetchJikkyoWebSocketInfo channel_id) w).
  - exact (call_requests (SendJikkyoComment channel_id comment) w).
  - rewrite (call_requests (Fetch (channel_id ++ "/jikkyo")) w : requests (after (Channels.fetch _) w) = _).
    rewrite (call_requests (FetchJikkyoWebSocketInfo channel_id) w
              : requests (after (Channels.fetchJikkyoWebSocketInfo _) w) = _).
    reflexivity.
Qed.

(** C7, as the code has it: a failed operation shows one notification whose
    text is fixed by the operation; two failed operations show the same
    text exactly when they fall in the same group, and [fetchAll] and
    [fetch] share a group. *)
Theorem failure_message_names_the_group
    (op1 op2 : Operation) (w1 w2 : World Server) (e1 e2 : JSValue) (s1 s2 : Server) :
  request (spec_request op1) (server w1) = (Fulfilled (ErrorResponse e1), s1) ->
  request (spec_request op2) (server w2) = (Fulfilled (ErrorResponse e2), s2) ->
  exists n1 n2,
    notifications (after (call op1) w1) = notifications w1 ++ [n1] /\
    notifications (after (call op2) w2) = notifications w2 ++ [n2] /\
    (message n1 = message n2 <-> message_group op1 = message_group op2).
Proof.
  intros H1 H2. unfold after.
  destruct op1, op2; cbn [call spec_request] in H1, H2 |- *;
    unfold Channels.fetchAll, Channels.fetch, Channels.fetchJikkyoWebSocketInfo,
      Channels.sendJikkyoComment, bind, APIClient.get, APIClient.post, APIClient.send;
    rewrite H1, H2; cbn;
    do 2 eexists; (split; [reflexivity | split; [reflexivity | ]]);
    cbn; split; intros Heq; try reflexivity; discriminate Heq.
Qed.

(** C5, as the code has it: [fetchAll] hands the directory of the backend
    on as it is.  When that directory has no duplicate [id] and files every
    channel under its [type], the returned directory has no duplicate [id]
    and each of its channels is in exactly the one bucket of its [type]. *)
Theorem fetched_directory_keeps_the_partition
    (directory : JSValue) (w : World Server) (s' : Server) :
  request (mkRequest GET "/channels" None) (server w)
    = (Fulfilled (SuccessResponse directory), s') ->
  directory_invariant directory = true ->
  exists returned,
    outcome Channels.fetchAll w = Fulfilled returned /\
    returned = directory /\
    no_duplicate_id returned = true /\
    forall tag channel,
      In tag channel_type_tags -> In channel (bucket returned tag) ->
      type_of channel = Some tag /\
      forall tag', In tag' channel_type_tags -> In channel (bucket returned tag') -> tag' = tag.
Proof.
  intros Hanswer Hinv.
  pose proof (call_success FetchAll w directory s' Hanswer) as Hrun. cbn [call] in Hrun.
  exists directory. unfold outcome. rewrite Hrun. cbn [fst].
  unfold directory_invariant in Hinv. apply andb_true_iff in Hinv as [Hids Hmatch].
  split; [reflexivity | split; [reflexivity | split; [exact Hids | ]]].
  intros tag channel Htag Hin.
  pose proof (typed_bucket directory tag channel Hmatch Htag Hin) as Ht.
  split; [exact Ht | ].
  intros tag' Htag' Hin'.
  pose proof (typed_bucket directory tag' channel Hmatch Htag' Hin') as Ht'.
  congruence.
Qed.

(** C6, as the code has it: the tag of a channel is not looked at when the
    client runs.  A successful response with a channel whose [type] is
    outside the six tags is returned as it is: the promise is fulfilled
    with it and nothing is notified. *)
Theorem unrecognized_type_is_passed_through
    (directory : JSValue) (w : World Server) (s' : Server) :
  request (mkRequest GET "/channels" None) (server w)
    = (Fulfilled (SuccessResponse directory), s') ->
  has_unrecognized_type directory = true ->
  outcome Channels.fetchAll w = Fulfilled directory /\
  notifications (after Channels.fetchAll w) = notifications w.
Proof.
  intros Hanswer _.
  pose proof (call_success FetchAll w directory s' Hanswer) as Hrun. cbn [call] in Hrun.
  unfold outcome, after. rewrite Hrun. split; reflexivity.
Qed.

End Requests.

(** ** The placeholder channel *)

(** C2: the placeholder is watchable, has no viewers and has [null] in both
    program slots; its properties are those of [ILiveChannel], name for
    name, and it conforms to that interface whatever the program interface
    is, so it can stand where fetched data is expected. *)
Theorem placeholder_live_channel (IProgram : TsType) :
  let placeholder := ILiveChannelDefault spec_IProgramDefault in
  prop "is_watchable" placeholder = Some (JSBool true) /\
  prop "viewer_count" placeholder = Some (JSNumber 0) /\
  prop "program_present" placeholder = Some JSNull /\
  prop "program_following" placeholder = Some JSNull /\
  prop_names placeholder = member_names (ILiveChannel IProgram) /\
  has_type (ILiveChannel IProgram) placeholder = true.
Proof.
  cbv zeta.
  split; [reflexivity | split; [reflexivity | split; [reflexivity | split; [reflexivity | ]]]].
  split; [reflexivity | ].
  unfold ILiveChannel, IChannel. cbn [extends].
  cbn. rewrite !orb_true_r. reflexivity.
Qed.

(** * The properties on concrete runs *)

Lemma failure_is_null_with_one_notification_witness :
  outcome (call (Fetch "gr011")) (fresh failing_backend) = Fulfilled JSNull /\
  (exists msg,
      notifications (after (call (Fetch "gr011")) (fresh failing_backend)) =
        [] ++ [mkNotification (ErrorResponse (JSObject [("status", JSNumber 404)])) msg]) /\
  notifications (after (call FetchAll) (fresh (sample_backend good_directory))) = [].
Proof.
  destruct (failure_is_null_with_one_notification (Fetch "gr011") (fresh failing_backend))
    as [Hfailure _].
  destruct (failure_is_null_with_one_notification FetchAll (fresh (sample_backend good_directory)))
    as [_ Hsuccess].
  destruct (Hfailure (JSObject [("status", JSNumber 404)]) failing_backend eq_refl)
    as [Hnull Hone].
  split; [exact Hnull | split; [exact Hone | ]].
  exact (Hsuccess good_directory (sample_backend good_directory) eq_refl).
Defined.

Lemma rejected_comment_is_a_result_witness :
  let w := fresh (sample_backend good_directory) in
  outcome (Channels.sendJikkyoComment "gr011" malformed_comment) w = Fulfilled rate_limited /\
  rate_limited <> JSNull /\
  notifications (after (Channels.sendJikkyoComment "gr011" malformed_comment) w) = [].
Proof.
  exact (rejected_comment_is_a_result "gr011" malformed_comment rate_limited
           (fresh (sample_backend good_directory)) (sample_backend good_directory)
           eq_refl eq_refl).
Defined.

Lemma null_websocket_url_is_a_result_witness :
  let w := fresh (sample_backend good_directory) in
  outcome (Channels.fetchJikkyoWebSocketInfo "gr011") w = Fulfilled no_jikkyo /\
  no_jikkyo <> JSNull /\
  notifications (after (Channels.fetchJikkyoWebSocketInfo "gr011") w) = [].
Proof.
  exact (null_websocket_url_is_a_result "gr011" no_jikkyo
           (fresh (sample_backend good_directory)) (sample_backend good_directory)
           eq_refl eq_refl).
Defined.

Lemma success_returns_the_payload_witness :
  outcome (call (Fetch "gr011")) (fresh (sample_backend good_directory)) = Fulfilled nhk_g.
Proof.
  exact (success_returns_the_payload (Fetch "gr011")
           (fresh (sample_backend good_directory)) nhk_g (sample_backend good_directory)
           eq_refl).
Defined.

Lemma failure_message_names_the_group_witness :
  exists n1 n2,
    notifications (after (call FetchAll) (fresh failing_backend)) = [] ++ [n1] /\
    notifications
      (after (call (SendJikkyoComment "gr011" malformed_comment)) (fresh failing_backend))
      = [] ++ [n2] /\
    (message n1 = message n2 <->
     message_group FetchAll = message_group (SendJikkyoComment "gr011" malformed_comment)).
Proof.
  exact (failure_message_names_the_group FetchAll (SendJikkyoComment "gr011" malformed_comment)
           (fresh failing_backend) (fresh failing_backend)
           (JSObject [("status", JSNumber 404)]) (JSObject [("status", JSNumber 404)])
           failing_backend failing_backend eq_refl eq_refl).
Defined.

Lemma fetched_directory_keeps_the_partition_witness :
  exists returned,
    outcome Channels.fetchAll (fresh (sample_backend good_directory)) = Fulfilled returned /\
    returned = good_directory /\
    no_duplicate_id returned = true /\
    forall tag channel,
      In tag channel_type_tags -> In channel (bucket returned tag) ->
      type_of channel = Some tag /\
      forall tag', In tag' channel_type_tags -> In channel (bucket returned tag') -> tag' = tag.
Proof.
  exact (fetched_directory_keeps_the_partition good_directory
           (fresh (sample_backend good_directory)) (sample_backend good_directory)
           eq_refl eq_refl).
Defined.

Lemma unrecognized_type_is_passed_through_witness :
  outcome Channels.fetchAll (fresh (sample_backend odd_directory)) = Fulfilled odd_directory /\
  notifications (after Channels.fetchAll (fresh (sample_backend odd_directory))) = [].
Proof.
  exact (unrecognized_type_is_passed_through odd_directory
           (fresh (sample_backend odd_directory)) (sample_backend odd_directory)
           eq_refl eq_refl).
Defined.

(** ** Where the code departs from the wording of the spec *)

(** A directory that conforms to [ILiveChannelsList], with one channel
    filed under two buckets, is returned by a successful [fetchAll]. *)
Lemma fetchAll_returns_a_misfiled_directory :
  let w := fresh (sample_backend misfiled_directory) in
  has_type (ILiveChannelsList sample_IProgram) misfiled_directory = true /\
  outcome Channels.fetchAll w = Fulfilled misfiled_directory /\
  no_duplicate_id misfiled_directory = false /\
  In nhk_bs (bucket misfiled_directory "GR") /\
  type_of nhk_bs = Some "BS".
Proof.
  cbv zeta. repeat split; try reflexivity. right; left; reflexivity.
Qed.

(** A channel with the tag [XX] goes through a successful [fetchAll]: the
    promise is fulfilled, not rejected, and nothing is notified. *)
Lemma fetchAll_accepts_an_unrecognized_type :
  let w := fresh (sample_backend odd_directory) in
  has_unrecognized_type odd_directory = true /\
  has_type (ILiveChannelsList sample_IProgram) odd_directory = false /\
  outcome Channels.fetchAll w = Fulfilled odd_directory /\
  (forall reason, outcome Channels.fetchAll w <> Rejected reason) /\
  notifications (after Channels.fetchAll w) = [].
Proof.
  cbv zeta. repeat split; try reflexivity. intros reason; discriminate.
Qed.

(** [fetchAll] and [fetch] are different operations, and when both fail
    against the same backend they show the same notification. *)
Lemma fetchAll_and_fetch_notify_alike :
  let w := fresh failing_backend in
  FetchAll <> Fetch "gr011" /\
  length (notifications (after (call FetchAll) w)) = 1%nat /\
  notifications (after (call FetchAll) w) = notifications (after (call (Fetch "gr011")) w).
Proof.
  cbv zeta. split; [discriminate | split; reflexivity].
Qed.

(** ** Further runs *)

(** The scenario of the spec: one terrestrial and one BS channel. *)
Example directory_scenario :
  outcome Channels.fetchAll (fresh (sample_backend good_directory)) = Fulfilled good_directory /\
  map (fun tag => length (bucket good_directory tag)) channel_type_tags
    = [1; 1; 0; 0; 0; 0]%nat.
Proof. split; reflexivity. Qed.

(** An identifier with a slash reaches another route: the single-channel
    operation called with [gr011/jikkyo] receives the gateway information
    of [gr011]. *)
Example slash_changes_the_route :
  outcome (Channels.fetch "gr011/jikkyo") (fresh (sample_backend good_directory))
    = Fulfilled no_jikkyo.
Proof. reflexivity. Qed.

(** A submission with empty text and negative [vpos] conforms to the
    request interface and is sent as it is. *)
Example malformed_comment_is_sent :
  has_type IJikkyoSendCommentRequest malformed_comment = true /\
  requests (after (Channels.sendJikkyoComment "gr011" malformed_comment)
                  (fresh (sample_backend good_directory)))
    = [mkRequest POST "/channels/gr011/jikkyo/comment" (Some malformed_comment)].
Proof. split; reflexivity. Qed.

(** When the transport itself rejects, the operation rejects: nothing in
    this module catches. *)
Example rejection_propagates :
  outcome Channels.fetchAll
          (fresh [(GET, "/channels", Rejected (JSString "network down"))])
    = Rejected (JSString "network down").
Proof. reflexivity. Qed.

(** * Further properties of the module *)

(** ** The declared types *)

(** A value conforms to an interface exactly when each declared member is
    there with a conforming value. *)
Lemma interface_member (members : list (string * TsType)) (v : JSValue)
    (k : string) (mt : TsType) :
  has_type (TInterface members) v = true -> In (k, mt) members ->
  exists x, prop k v = Some x /\ has_type mt x = true.
Proof.
  destruct v as [| | | | | props]; try discriminate.
  induction members as [| [k' mt'] rest IH]; intros Htyped Hin; [contradiction | ].
  simpl in Htyped. apply andb_true_iff in Htyped as [Hhead Hrest].
  destruct Hin as [Heq | Hin].
  - injection Heq as -> ->. simpl.
    destruct (get_prop k props) as [x |]; [now exists x | discriminate].
  - exact (IH Hrest Hin).
Qed.

Lemma interface_app (members own : list (string * TsType)) (v : JSValue) :
  has_type (TInterface (members ++ own)) v =
    has_type (TInterface members) v && has_type (TInterface own) v.
Proof.
  destruct v as [| | | | | props]; try reflexivity.
  induction members as [| [k mt] rest IH]; [reflexivity | ].
  simpl in IH |- *. rewrite IH. now rewrite andb_assoc.
Qed.

Lemma ChannelType_inv (v : JSValue) :
  has_type ChannelType v = true ->
  exists tag, In tag channel_type_tags /\ v = JSString tag.
Proof.
  destruct v as [| | | s | |]; try discriminate.
  unfold ChannelType. cbn [has_type].
  rewrite !orb_true_iff, !String.eqb_eq.
  intros Hs. exists s. split; [ | reflexivity].
  unfold channel_type_tags. cbn [In]. intuition.
Qed.

(** X3: a directory that conforms to [ILiveChannelsList] has the six
    buckets, each an array; every channel of the union conforms to
    [ILiveChannel], has a string [id] and one of the six tags as [type];
    so no channel of it has an unrecognized [type]. *)
Theorem conforming_directory_has_typed_channels (IProgram : TsType) (directory : JSValue) :
  has_type (ILiveChannelsList IProgram) directory = true ->
  (forall tag, In tag channel_type_tags ->
     exists channels, prop tag directory = Some (JSArray channels)) /\
  (forall channel, In channel (all_channels directory) ->
     has_type (ILiveChannel IProgram) channel = true /\
     (exists id, id_of channel = Some id) /\
     (exists tag, In tag channel_type_tags /\ type_of channel = Some tag)) /\
  has_unrecognized_type directory = false.
Proof.
  intros Hdir.
  assert (Hbucket : forall tag, In tag channel_type_tags ->
            exists channels, prop tag directory = Some (JSArray channels) /\
                             forallb (has_type (ILiveChannel IProgram)) channels = true).
  { intros tag Htag.
    destruct (interface_member _ directory tag (TArray (ILiveChannel IProgram)) Hdir)
      as [x [Hprop Harray]].
    - change (In (tag, TArray (ILiveChannel IProgram))
                 (map (fun t => (t, TArray (ILiveChannel IProgram))) channel_type_tags)).
      exact (in_map (fun t => (t, TArray (ILiveChannel IProgram))) _ _ Htag).
    - destruct x as [| | | | channels |]; try discriminate.
      exists channels. split; assumption. }
  assert (Hchannel : forall channel, In channel (all_channels directory) ->
            has_type (ILiveChannel IProgram) channel = true).
  { intros channel Hin. unfold all_channels in Hin.
    apply in_flat_map in Hin as [tag [Htag Hin]].
    destruct (Hbucket tag Htag) as [channels [Hprop Hall]].
    unfold bucket in Hin. rewrite Hprop in Hin.
    rewrite forallb_forall in Hall. now apply Hall. }
  assert (Htag : forall channel, has_type (ILiveChannel IProgram) channel = true ->
            exists x, prop "type" channel = Some x /\ has_type ChannelType x = true).
  { intros channel Hlive.
    apply (interface_member _ channel "type" ChannelType Hlive). cbn. tauto. }
  split; [ | split].
  - intros tag Hin. destruct (Hbucket tag Hin) as [channels [Hprop _]]. now exists channels.
  - intros channel Hin. pose proof (Hchannel channel Hin) as Hlive.
    split; [exact Hlive | split].
    + destruct (interface_member _ channel "id" TString Hlive) as [x [Hprop Hstring]].
      * cbn. tauto.
      * destruct x as [| | | id | |]; try discriminate.
        exists id. unfold id_of. now rewrite Hprop.
    + destruct (Htag channel Hlive) as [x [Hprop Hknown]].
      destruct (ChannelType_inv x Hknown) as [tag [Hin' ->]].
      exists tag. split; [exact Hin' | ]. unfold type_of. now rewrite Hprop.
  - destruct (has_unrecognized_type directory) eqn:Hodd; [ | reflexivity].
    unfold has_unrecognized_type in Hodd.
    apply existsb_exists in Hodd as [channel [Hin Hbad]].
    destruct (Htag channel (Hchannel channel Hin)) as [x [Hprop Hknown]].
    rewrite Hprop, Hknown in Hbad. discriminate.
Qed.

(** X4: the tags and the labels of the channel list overlap in four
    strings only: a value is both a [ChannelType] and a
    [ChannelTypePretty] exactly when it is [BS], [CS], [CATV] or [SKY]. *)
Theorem tag_is_its_own_label_for_four (v : JSValue) :
  has_type ChannelType v = true /\ has_type ChannelTypePretty v = true <->
  exists tag, In tag tags_shown_as_they_are /\ v = JSString tag.
Proof.
  split.
  - intros [Htag Hlabel].
    destruct (ChannelType_inv v Htag) as [tag [Hin ->]].
    exists tag. split; [ | reflexivity].
    simpl in Hin.
    repeat (destruct Hin as [<- | Hin];
            [first [discriminate Hlabel | cbn; tauto] | ]).
    contradiction.
  - intros [tag [Hin ->]]. simpl in Hin.
    repeat (destruct Hin as [<- | Hin]; [split; reflexivity | ]). contradiction.
Qed.

(** X12: the placeholder against its declared type, for every value that
    the program module may export as the default program.  Its channel
    part conforms to [IChannel]; the whole conforms to [ILiveChannel]
    exactly when the imported value fits a program slot, that is, conforms
    to [IProgram | null]. *)
Theorem placeholder_conforms_iff_default_program_does
    (IProgram : TsType) (IProgramDefault : JSValue) :
  has_type IChannel (ILiveChannelDefault IProgramDefault) = true /\
  (has_type (ILiveChannel IProgram) (ILiveChannelDefault IProgramDefault) = true <->
   has_type (TUnion IProgram TNull) IProgramDefault = true).
Proof.
  split; [reflexivity | ].
  unfold ILiveChannel, IChannel. cbn [extends]. rewrite interface_app.
  change (has_type (TInterface _) (ILiveChannelDefault IProgramDefault)) with true at 1.
  cbn. rewrite !andb_true_r, andb_diag. reflexivity.
Qed.

(** ** Strings and paths *)

Lemma length_append (a b : string) :
  String.length (a ++ b) = (String.length a + String.length b)%nat.
Proof.
  induction a as [| c a IH]; simpl; [reflexivity | now rewrite IH].
Qed.

(** Two identifiers followed by the same suffix give the same string only
    when they are the same identifier. *)
Lemma append_cancel_r (a b suffix : string) :
  (a ++ suffix)%string = (b ++ suffix)%string -> a = b.
Proof.
  revert b. induction a as [| c a IH]; intros [| d b] Heq; simpl in Heq.
  - reflexivity.
  - apply (f_equal String.length) in Heq. simpl in Heq. rewrite length_append in Heq. lia.
  - apply (f_equal String.length) in Heq. simpl in Heq. rewrite length_append in Heq. lia.
  - injection Heq as -> Heq. now rewrite (IH b Heq).
Qed.

Lemma snoc_is_longer {A : Type} (l : list A) (x : A) : l ++ [x] <> l.
Proof.
  intros Heq. apply (f_equal (@length A)) in Heq.
  rewrite length_app in Heq. simpl in Heq. lia.
Qed.

(** ** One call *)

Section Calls.

Context {Server : Type} `{Transport Server}.

(** X5: whatever the API client answers (a payload, an error envelope, a
    rejection), an operation hands it exactly one request, the one of the
    interface table, and the remote side is left as that one request left
    it: nothing is retried. *)
Theorem one_request_per_call (op : Operation) (w : World Server) :
  requests (after (call op) w) = requests w ++ [spec_request op] /\
  server (after (call op) w) = snd (request (spec_request op) (server w)).
Proof.
  split; [exact (call_requests op w) | ].
  unfold after.
  destruct (request (spec_request op) (server w)) as [[[data | envelope] | reason] s'] eqn:Hanswer.
  - now rewrite (call_success op w data s' Hanswer).
  - destruct (call_error op w envelope s' Hanswer) as [msg Hrun]. now rewrite Hrun.
  - now rewrite (call_rejected op w reason s' Hanswer).
Qed.

(** X6: nothing in the module catches: when the promise of the API client
    is rejected, the promise of the operation is rejected with the same
    reason, and no notification is shown. *)
Theorem transport_rejection_is_not_caught
    (op : Operation) (w : World Server) (reason : JSValue) (s' : Server) :
  request (spec_request op) (server w) = (Rejected reason, s') ->
  outcome (call op) w = Rejected reason /\
  notifications (after (call op) w) = notifications w.
Proof.
  intros Hanswer. unfold outcome, after.
  rewrite (call_rejected op w reason s' Hanswer). split; reflexivity.
Qed.

(** X7: the result [null] has two causes that the caller cannot tell apart
    by the result: an error envelope, or a successful response whose
    payload is itself [null]. *)
Theorem null_result_has_two_causes (op : Operation) (w : World Server) :
  outcome (call op) w = Fulfilled JSNull <->
  (exists envelope,
      fst (request (spec_request op) (server w)) = Fulfilled (ErrorResponse envelope)) \/
  fst (request (spec_request op) (server w)) = Fulfilled (SuccessResponse JSNull).
Proof.
  unfold outcome.
  destruct (request (spec_request op) (server w)) as [[[data | envelope] | reason] s'] eqn:Hanswer;
    cbn [fst].
  - rewrite (call_success op w data s' Hanswer). cbn [fst]. split.
    + intros Hnull. injection Hnull as ->. now right.
    + intros [[envelope Herr] | Hok]; [discriminate | ]. now injection Hok as ->.
  - destruct (call_error op w envelope s' Hanswer) as [msg Hrun]. rewrite Hrun. cbn [fst].
    split; [intros _; left; now exists envelope | reflexivity].
  - rewrite (call_rejected op w reason s' Hanswer). cbn [fst]. split.
    + discriminate.
    + intros [[envelope Herr] | Hok]; discriminate.
Qed.

(** X8: the notification is the faithful sign of failure: the list of
    notifications changes exactly when the API client answered with an
    error envelope. *)
Theorem notification_exactly_on_error (op : Operation) (w : World Server) :
  notifications (after (call op) w) <> notifications w <->
  exists envelope,
    fst (request (spec_request op) (server w)) = Fulfilled (ErrorResponse envelope).
Proof.
  unfold after.
  destruct (request (spec_request op) (server w)) as [[[data | envelope] | reason] s'] eqn:Hanswer;
    cbn [fst].
  - rewrite (call_success op w data s' Hanswer). cbn [snd notifications]. split.
    + intros Hchanged. now contradiction Hchanged.
    + intros [envelope Herr]. discriminate.
  - destruct (call_error op w envelope s' Hanswer) as [msg Hrun]. rewrite Hrun.
    cbn [snd notifications]. split.
    + intros _. now exists envelope.
    + intros _. apply snoc_is_longer.
  - rewrite (call_rejected op w reason s' Hanswer). cbn [snd notifications]. split.
    + intros Hchanged. now contradiction Hchanged.
    + intros [envelope Herr]. discriminate.
Qed.

(** X9: the identifier can be read back from the request: two calls of the
    same per-channel operation that issue the same request were given the
    same identifier (and, for a comment, the same comment). *)
Theorem equal_requests_have_equal_identifiers
    (a b : string) (c d : JSValue) (w : World Server) :
  (requests (after (Channels.fetch a) w) = requests (after (Channels.fetch b) w) -> a = b) /\
  (requests (after (Channels.fetchJikkyoWebSocketInfo a) w) =
     requests (after (Channels.fetchJikkyoWebSocketInfo b) w) -> a = b) /\
  (requests (after (Channels.sendJikkyoComment a c) w) =
     requests (after (Channels.sendJikkyoComment b d) w) -> a = b /\ c = d).
Proof.
  split; [ | split]; intros Heq.
  - rewrite (call_requests (Fetch a) w : requests (after (Channels.fetch a) w) = _) in Heq.
    rewrite (call_requests (Fetch b) w : requests (after (Channels.fetch b) w) = _) in Heq.
    apply app_inv_head in Heq. cbn in Heq. now injection Heq.
  - rewrite (call_requests (FetchJikkyoWebSocketInfo a) w
              : requests (after (Channels.fetchJikkyoWebSocketInfo a) w) = _) in Heq.
    rewrite (call_requests (FetchJikkyoWebSocketInfo b) w
              : requests (after (Channels.fetchJikkyoWebSocketInfo b) w) = _) in Heq.
    apply app_inv_head in Heq. simpl in Heq. injection Heq as Hpath.
    exact (append_cancel_r a b "/jikkyo" Hpath).
  - rewrite (call_requests (SendJikkyoComment a c) w
              : requests (after (Channels.sendJikkyoComment a c) w) = _) in Heq.
    rewrite (call_requests (SendJikkyoComment b d) w
              : requests (after (Channels.sendJikkyoComment b d) w) = _) in Heq.
    apply app_inv_head in Heq. simpl in Heq. injection Heq as Hpath Hbody.
    split; [exact (append_cancel_r a b "/jikkyo/comment" Hpath) | exact Hbody].
Qed.

(** X10: no per-channel operation, whatever its identifier (the empty one
    included), issues the request of the directory. *)
Theorem per_channel_request_is_not_the_directory_request
    (op : Operation) (w : World Server) :
  op <> FetchAll ->
  requests (after (call op) w) <> requests (after (call FetchAll) w).
Proof.
  intros Hop Heq. rewrite !call_requests in Heq. apply app_inv_head in Heq.
  destruct op as [| channel_id | channel_id | channel_id comment];
    [now contradiction Hop | | | ]; cbn in Heq; discriminate Heq.
Qed.

(** X11: awaiting one operation and then another.  When the API client
    answers the first, with a payload or with an error envelope, the second
    is still requested and its result is the result of the pair; when the
    first is rejected, the second is never requested. *)
Theorem failure_does_not_stop_the_next_call (op1 op2 : Operation) (w : World Server) :
  let both := bind (call op1) (fun _ => call op2) in
  (forall response s',
      request (spec_request op1) (server w) = (Fulfilled response, s') ->
      requests (after both w) = requests w ++ [spec_request op1; spec_request op2] /\
      outcome both w = outcome (call op2) (after (call op1) w)) /\
  (forall reason s',
      request (spec_request op1) (server w) = (Rejected reason, s') ->
      requests (after both w) = requests w ++ [spec_request op1] /\
      outcome both w = Rejected reason).
Proof.
  cbv zeta. split.
  - intros response s' Hanswer.
    assert (Hfirst : exists result, call op1 w = (Fulfilled result, after (call op1) w)).
    { unfold after. destruct response as [data | envelope].
      - rewrite (call_success op1 w data s' Hanswer). now exists data.
      - destruct (call_error op1 w envelope s' Hanswer) as [msg Hrun].
        rewrite Hrun. now exists JSNull. }
    destruct Hfirst as [result Hfirst].
    unfold after at 1, outcome at 1, bind. rewrite Hfirst.
    split; [ | reflexivity].
    change (requests (after (call op2) (after (call op1) w)) =
              requests w ++ [spec_request op1; spec_request op2]).
    rewrite !call_requests. now rewrite <- app_assoc.
  - intros reason s' Hanswer.
    unfold after, outcome, bind. rewrite (call_rejected op1 w reason s' Hanswer).
    split; reflexivity.
Qed.

End Calls.

(** ** The further properties on concrete runs *)

Lemma conforming_directory_has_typed_channels_witness :
  (forall tag, In tag channel_type_tags ->
     exists channels, prop tag good_directory = Some (JSArray channels)) /\
  (forall channel, In channel (all_channels good_directory) ->
     has_type (ILiveChannel sample_IProgram) channel = true /\
     (exists id, id_of channel = Some id) /\
     (exists tag, In tag channel_type_tags /\ type_of channel = Some tag)) /\
  has_unrecognized_type good_directory = false.
Proof.
  exact (conforming_directory_has_typed_channels sample_IProgram good_directory eq_refl).
Defined.

Lemma transport_rejection_is_not_caught_witness :
  outcome (call FetchAll) (fresh unreachable_backend) = Rejected (JSString "network down") /\
  notifications (after (call FetchAll) (fresh unreachable_backend)) = [].
Proof.
  exact (transport_rejection_is_not_caught FetchAll (fresh unreachable_backend)
           (JSString "network down") unreachable_backend eq_refl).
Defined.

Lemma equal_requests_have_equal_identifiers_witness :
  "gr011" = "gr011" /\ "gr011" = "gr011" /\ ("gr011" = "gr011" /\ no_jikkyo = no_jikkyo).
Proof.
  destruct (equal_requests_have_equal_identifiers "gr011" "gr011" no_jikkyo no_jikkyo
              (fresh failing_backend)) as [Hfetch [Hjikkyo Hcomment]].
  split; [exact (Hfetch eq_refl) | split; [exact (Hjikkyo eq_refl) | exact (Hcomment eq_refl)]].
Defined.

Lemma per_channel_request_is_not_the_directory_request_witness :
  Fetch "" <> FetchAll /\
  requests (after (call (Fetch "")) (fresh (sample_backend good_directory))) <>
    requests (after (call FetchAll) (fresh (sample_backend good_directory))).
Proof.
  assert (Hop : Fetch "" <> FetchAll) by discriminate.
  split; [exact Hop | ].
  exact (per_channel_request_is_not_the_directory_request (Fetch "")
           (fresh (sample_backend good_directory)) Hop).
Defined.

Lemma failure_does_not_stop_the_next_call_witness :
  let failed_then_ok :=
    bind (call (Fetch "bs999")) (fun _ => call (FetchJikkyoWebSocketInfo "gr011")) in
  let rejected_then_ok := bind (call FetchAll) (fun _ => call (Fetch "gr011")) in
  (requests (after failed_then_ok (fresh (sample_backend good_directory))) =
     [] ++ [mkRequest GET "/channels/bs999" None; mkRequest GET "/channels/gr011/jikkyo" None] /\
   outcome failed_then_ok (fresh (sample_backend good_directory)) =
     outcome (call (FetchJikkyoWebSocketInfo "gr011"))
             (after (call (Fetch "bs999")) (fresh (sample_backend good_directory)))) /\
  (requests (after rejected_then_ok (fresh unreachable_backend)) =
     [] ++ [mkRequest GET "/channels" None] /\
   outcome rejected_then_ok (fresh unreachable_backend) = Rejected (JSString "network down")).
Proof.
  cbv zeta.
  destruct (failure_does_not_stop_the_next_call (Fetch "bs999")
              (FetchJikkyoWebSocketInfo "gr011") (fresh (sample_backend good_directory)))
    as [Hanswered _].
  destruct (failure_does_not_stop_the_next_call FetchAll (Fetch "gr011")
              (fresh unreachable_backend)) as [_ Hrejected].
  split.
  - exact (Hanswered (ErrorResponse (JSObject [("status", JSNumber 404)]))
             (sample_backend good_directory) eq_refl).
  - exact (Hrejected (JSString "network down") unreachable_backend eq_refl).
Defined.

(** A successful response whose payload is [null] and a failed one give
    the caller the same result; only the notification tells them apart. *)
Example null_payload_looks_like_a_failure :
  let answers_null := fresh [(GET, "/channels/gr011", Fulfilled (SuccessResponse JSNull))] in
  outcome (Channels.fetch "gr011") answers_null =
    outcome (Channels.fetch "gr011") (fresh failing_backend) /\
  notifications (after (Channels.fetch "gr011") answers_null) = [] /\
  length (notifications (after (Channels.fetch "gr011") (fresh failing_backend))) = 1%nat.
Proof. cbv zeta. repeat split. Qed.

(** With a default program that is an object of the program interface, the
    placeholder conforms as well, and its slots are then not [null]. *)
Example placeholder_with_an_object_default :
  has_type (ILiveChannel sample_IProgram) (ILiveChannelDefault sample_IProgramDefault) = true /\
  prop "program_present" (ILiveChannelDefault sample_IProgramDefault)
    = Some sample_IProgramDefault.
Proof. split; reflexivity. Qed.
